(** * Warning-rule evaluation of the taxonomy dashboard

    A shallow embedding of [evaluate_rules] and of the functions it calls
    ([fetch_user_pref_map], [list_rules], [fetch_rule_conditions]) from
    [pages/6_Warnings.py], followed by the properties of the rule engine.

    Python integers are [Z], Python [str] values are [string] (the operator
    names the engine compares against are ASCII), [Optional[int]] is
    [option Z], the preference dictionary is a [gmap Z Z] and a pandas
    DataFrame is the list of its rows.  The SQL Server database is threaded
    explicitly through a state-and-exception monad.

    No version of pandas is fixed by the repository.  The one point where
    the versions differ for this code is the value a NULL text has in a
    frame: [None], or [NaN] when pandas infers a string column (the
    option [future.infer_string], on by default from pandas 3).  The
    functions that build the frame of the rules take this option as their
    first argument, [infer_string], and the properties are stated for
    both of its values. *)

From Stdlib Require Import ZArith String Ascii List Bool Lia.
From Equations Require Import Equations.
From stdpp Require Import base option list gmap strings.

Local Open Scope Z_scope.
Local Open Scope string_scope.

(** ** Python values, exceptions *)

(** The exception the engine can run into: reading an attribute that a
    namedtuple does not have. *)
Inductive exn : Type :=
| AttributeError (attr : string).

Inductive result (A : Type) : Type :=
| Ok (a : A)
| Raise (e : exn).
Arguments Ok {A} a.
Arguments Raise {A} e.

(** The values found in the columns of a row. *)
Inductive pyval : Type :=
| PNone
| PNaN
| PBool (b : bool)
| PInt (z : Z)
| PStr (s : string)
| PDatetime (t : Z).

Definition of_opt_str (o : option string) : pyval :=
  match o with Some s => PStr s | None => PNone end.

(** A namedtuple, as [DataFrame.itertuples()] yields them: its fields in
    order, each with its value. *)
Definition namedtuple : Type := list (string * pyval).

(** [t.a] on a namedtuple [t]. *)
Fixpoint getattr (t : namedtuple) (a : string) : result pyval :=
  match t with
  | [] => Raise (AttributeError a)
  | (k, v) :: t' => if bool_decide (k = a) then Ok v else getattr t' a
  end.

(** [str.upper()] on ASCII text: the letters a-z go to A-Z, every other
    character is kept. *)
Definition upper_char (a : ascii) : ascii :=
  let n := nat_of_ascii a in
  if ((97 <=? n) && (n <=? 122))%nat then ascii_of_nat (n - 32) else a.

Fixpoint upper (s : string) : string :=
  match s with
  | EmptyString => EmptyString
  | String a s' => String (upper_char a) (upper s')
  end.

(** [str.lower()] on ASCII text, used to say that two texts differ only
    in the case of their letters: A-Z go to a-z. *)
Definition lower_char (a : ascii) : ascii :=
  let n := nat_of_ascii a in
  if ((65 <=? n) && (n <=? 90))%nat then ascii_of_nat (n + 32) else a.

Fixpoint lower (s : string) : string :=
  match s with
  | EmptyString => EmptyString
  | String a s' => String (lower_char a) (lower s')
  end.

(** ** Rows of the queries *)

(** A row of the SELECT of [list_rules]: the columns are those of its
    select list, [id, name, severity, isActive, dataSourceFilter, dateAdded]
    and the aggregated [conditions] text.  The [message] column of
    [dbo.warningRule] is not in that list.  [dataSourceFilter] is the
    Python value of the nullable text column: [None] or a [str] as the
    driver hands it over, and [None], [NaN] or a [str] in the frame. *)
Module RuleRow.
Record t : Type := mk {
  id : Z;
  name : string;
  severity : string;
  isActive : bool;
  dataSourceFilter : pyval;
  dateAdded : Z;
  conditions : option string
}.
End RuleRow.

(** A row of the SELECT of [fetch_rule_conditions].  [pillarNodeValue_id]
    is [None] where the column is NULL (pandas shows it as NaN, which
    [pd.notna] tests). *)
Module CondRow.
Record t : Type := mk {
  id : Z;
  rule_id : Z;
  pillarNode_id : Z;
  pillarNode : string;
  operator : string;
  pillarNodeValue_id : option Z;
  pillarNodeValue : option string
}.
End CondRow.

(** The namedtuple [rules.itertuples()] yields for the row at position
    [Index]: pandas puts the index first, then one field per column. *)
Definition Pandas (Index : nat) (r : RuleRow.t) : namedtuple :=
  [ ("Index", PInt (Z.of_nat Index));
    ("id", PInt (RuleRow.id r));
    ("name", PStr (RuleRow.name r));
    ("severity", PStr (RuleRow.severity r));
    ("isActive", PBool (RuleRow.isActive r));
    ("dataSourceFilter", RuleRow.dataSourceFilter r);
    ("dateAdded", PDatetime (RuleRow.dateAdded r));
    ("conditions", of_opt_str (RuleRow.conditions r)) ].

Definition itertuples {A : Type} (df : list A) : list (nat * A) :=
  imap (λ i r, (i, r)) df.

(** ** The database *)

(** The database server is outside the program.  A [Store] is a state of
    the database as the engine sees it: for each SELECT statement the
    engine issues, the rows the server answers with, as the driver hands
    them to pandas.
    - [userNodePreference_select u ds]: the [(pillarNode_id,
      pillarNodeValue_id)] rows of [dbo.userNodePreference] for the user
      and data source (both columns are [int NOT NULL]);
    - [warningRule_select]: the rows of the query of [list_rules], in its
      order;
    - [warningRuleCondition_select rid]: the rows of the query of
      [fetch_rule_conditions] for the rule, in its order. *)
Record Store : Type := {
  userNodePreference_select : string → string → list (Z * Z);
  warningRule_select : list RuleRow.t;
  warningRuleCondition_select : Z → list CondRow.t
}.

(** Computations on the database: they take a state, end with a value or
    an exception, and leave a state. *)
Definition DB (A : Type) : Type := Store → result A * Store.

#[export] Instance DB_ret : MRet DB := λ A a s, (Ok a, s).

#[export] Instance DB_bind : MBind DB := λ A B k m s,
  match m s with
  | (Ok a, s') => k a s'
  | (Raise e, s') => (Raise e, s')
  end.

(** A value or exception computed without the database. *)
Definition lift {A : Type} (r : result A) : DB A := λ s, (r, s).

(** [pd.read_sql] / [cx.execute(SELECT ...)]: answers from the state. *)
Definition read_sql {A : Type} (q : Store → A) : DB A := λ s, (Ok (q s), s).

(** [cx.execute] of an INSERT, UPDATE or DELETE: changes the state. *)
Definition execute (w : Store → Store) : DB unit := λ s, (Ok tt, w s).

(** ** Rules CRUD (the part the engine reads, and one writer) *)

(** How [pd.read_sql] shows the column [dataSourceFilter] of the rows it
    receives.  With string inference, a column whose values are texts and
    NULLs, with at least one text, becomes a string column and its NULLs
    are [NaN]; a column of NULLs only, and every column without string
    inference, keeps [None]. *)
Definition is_text (v : pyval) : bool :=
  match v with PStr _ => true | _ => false end.

Definition is_missing (v : pyval) : bool :=
  match v with PNone | PNaN => true | _ => false end.

Definition string_column (infer_string : bool) (col : list pyval) : bool :=
  infer_string && existsb is_text col
  && forallb (λ v, is_text v || is_missing v) col.

Definition read_frame (infer_string : bool) (rows : list RuleRow.t)
    : list RuleRow.t :=
  if string_column infer_string (RuleRow.dataSourceFilter <$> rows) then
    (λ r, if is_missing (RuleRow.dataSourceFilter r)
          then RuleRow.mk (RuleRow.id r) (RuleRow.name r) (RuleRow.severity r)
                 (RuleRow.isActive r) PNaN (RuleRow.dateAdded r)
                 (RuleRow.conditions r)
          else r) <$> rows
  else rows.

Definition list_rules (infer_string : bool) : DB (list RuleRow.t) :=
  read_sql (λ s, read_frame infer_string (warningRule_select s)).

Definition fetch_rule_conditions (rule_id : Z) : DB (list CondRow.t) :=
  read_sql (λ s, warningRuleCondition_select s rule_id).

(** [ds_filter or None]. *)
Definition or_None (o : option string) : option string :=
  match o with
  | Some s => if bool_decide (s = "") then None else Some s
  | None => None
  end.

(** The UPDATE of [update_rule_meta], as the query of [list_rules] sees
    it afterwards (the message is not among its columns). *)
Definition update_rule_meta (rule_id : Z) (name severity : string)
    (is_active : bool) (ds_filter : option string) : DB unit :=
  execute (λ s,
    {| userNodePreference_select := userNodePreference_select s;
       warningRule_select :=
         map (λ r, if bool_decide (RuleRow.id r = rule_id)
                   then RuleRow.mk (RuleRow.id r) name severity is_active
                          (of_opt_str (or_None ds_filter)) (RuleRow.dateAdded r)
                          (RuleRow.conditions r)
                   else r)
             (warningRule_select s);
       warningRuleCondition_select := warningRuleCondition_select s |}).

(** ** Evaluation of the rules for a user and a data source *)

(** The dictionary comprehension [{int(r[0]): int(r[1]) for r in rows}]:
    a later row replaces an earlier one with the same key. *)
Definition dict_of_rows (rows : list (Z * Z)) : gmap Z Z :=
  foldl (λ d r, <[r.1 := r.2]> d) ∅ rows.

Definition fetch_user_pref_map (user_name data_source : string)
    : DB (gmap Z Z) :=
  rows ← read_sql (λ s, userNodePreference_select s user_name data_source);
  mret (dict_of_rows rows).

(** [val is None]. *)
Definition is_None (val : option Z) : bool :=
  match val with None => true | Some _ => false end.

(** [val == target] on [Optional[int]] values: [None] equals [None] only. *)
Definition py_eq (val target : option Z) : bool := bool_decide (val = target).

(** The body of the loop over the conditions up to the test [if not ok]:
    the new value of [ok]. *)
Definition cond_step (prefs : gmap Z Z) (ok : bool) (c : CondRow.t) : bool :=
  let val := prefs !! CondRow.pillarNode_id c in
  let op := upper (CondRow.operator c) in
  let target := CondRow.pillarNodeValue_id c in
  if bool_decide (op = "=") then
    ok && py_eq val target
  else if bool_decide (op = "!=") || bool_decide (op = "<>") then
    ok && (is_None val || negb (py_eq val target))
  else if bool_decide (op = "IS NULL") then
    ok && is_None val
  else if bool_decide (op = "IS NOT NULL") then
    ok && negb (is_None val)
  else
    false.

(** [for c in conds.itertuples(): ...; if not ok: break]: the value of [ok]
    when the loop is left. *)
Fixpoint conds_loop (prefs : gmap Z Z) (ok : bool) (conds : list CondRow.t)
    : bool :=
  match conds with
  | [] => ok
  | c :: conds' =>
      let ok' := cond_step prefs ok c in
      if negb ok' then ok' else conds_loop prefs ok' conds'
  end.

(** A row of the result: the dictionary appended to [hits]. *)
Record Hit : Type := {
  hit_id : pyval;
  hit_name : pyval;
  hit_severity : pyval;
  hit_message : pyval
}.

(** [{"id": r.id, "name": r.name, "severity": r.severity,
      "message": r.message}], the attributes read from left to right. *)
Definition make_hit (r : namedtuple) : result Hit :=
  match getattr r "id" with
  | Raise e => Raise e
  | Ok i =>
  match getattr r "name" with
  | Raise e => Raise e
  | Ok n =>
  match getattr r "severity" with
  | Raise e => Raise e
  | Ok sv =>
  match getattr r "message" with
  | Raise e => Raise e
  | Ok m => Ok {| hit_id := i; hit_name := n; hit_severity := sv;
                  hit_message := m |}
  end end end end.

(** The truth value of a Python value: [None], [False], zero and the
    empty string are false; [NaN] is a float other than zero, so true. *)
Definition py_truthy (v : pyval) : bool :=
  match v with
  | PNone => false
  | PNaN => true
  | PBool b => b
  | PInt z => negb (bool_decide (z = 0))
  | PStr s => negb (bool_decide (s = ""))
  | PDatetime _ => true
  end.

(** [v != s] for a string [s]: only an equal string is not different. *)
Definition py_ne_str (v : pyval) (s : string) : bool :=
  match v with
  | PStr t => negb (bool_decide (t = s))
  | _ => true
  end.

(** [r.dataSourceFilter and r.dataSourceFilter != data_source], as the
    [if] reads it. *)
Definition other_source (r : RuleRow.t) (data_source : string) : bool :=
  py_truthy (RuleRow.dataSourceFilter r)
  && py_ne_str (RuleRow.dataSourceFilter r) data_source.

(** The body of the loop over the rules, for the tuple at position
    [ir.1]: the new value of [hits]. *)
Definition rule_step (prefs : gmap Z Z) (data_source : string)
    (hits : list Hit) (ir : nat * RuleRow.t) : DB (list Hit) :=
  let r := ir.2 in
  if negb (RuleRow.isActive r) then mret hits
  else if other_source r data_source then mret hits
  else
    conds ← fetch_rule_conditions (RuleRow.id r);
    let ok := conds_loop prefs true conds in
    if ok then
      h ← lift (make_hit (Pandas ir.1 r));
      mret (hits ++ [h])%list
    else mret hits.

Fixpoint rules_loop (prefs : gmap Z Z) (data_source : string)
    (hits : list Hit) (rules : list (nat * RuleRow.t)) : DB (list Hit) :=
  match rules with
  | [] => mret hits
  | ir :: rules' =>
      hits' ← rule_step prefs data_source hits ir;
      rules_loop prefs data_source hits' rules'
  end.

(** [evaluate_rules]: the DataFrame of the hits.  The transaction the
    function opens around the loop issues no statement of its own. *)
Definition evaluate_rules (infer_string : bool)
    (user_name data_source : string) : DB (list Hit) :=
  prefs ← fetch_user_pref_map user_name data_source;
  rules ← list_rules infer_string;
  rules_loop prefs data_source [] (itertuples rules).

(** ** Notions used in the statements *)

(** Whether the loop over the rules reaches [hits.append] for a row: the
    row is active, passes the test on the data source and leaves the loop
    over its conditions with [ok] true. *)
Definition rule_fires (prefs : gmap Z Z) (data_source : string) (s : Store)
    (r : RuleRow.t) : bool :=
  RuleRow.isActive r && negb (other_source r data_source)
  && conds_loop prefs true (warningRuleCondition_select s (RuleRow.id r)).

(** The rows the loop over the rules does not skip. *)
Definition in_scope (data_source : string) (ir : nat * RuleRow.t) : bool :=
  RuleRow.isActive ir.2 && negb (other_source ir.2 data_source).

(** The operator names the chain of tests in the loop knows. *)
Definition known_operators : list string :=
  ["="; "!="; "<>"; "IS NULL"; "IS NOT NULL"].

(** A computation that leaves the database as it found it, whatever its
    result. *)
Definition read_only {A : Type} (m : DB A) : Prop :=
  ∀ s, (m s).2 = s.

(** ** Sample data: the scenarios of the specification *)

Definition cond_eq : CondRow.t :=
  CondRow.mk 1 1 10 "Source Format" "=" (Some 5) (Some "Unstructured").

Definition cond_neq : CondRow.t :=
  CondRow.mk 2 2 20 "Target Platform" "!=" (Some 7) (Some "Structured").

Definition cond_eq_no_target : CondRow.t :=
  CondRow.mk 3 3 10 "Source Format" "=" None None.

Definition cond_neq_no_target : CondRow.t :=
  CondRow.mk 4 4 20 "Target Platform" "!=" None None.

Definition cond_is_null : CondRow.t :=
  CondRow.mk 5 5 10 "Source Format" "IS NULL" None None.

Definition cond_is_not_null : CondRow.t :=
  CondRow.mk 6 5 10 "Source Format" "IS NOT NULL" None None.

Definition cond_is_null_lower : CondRow.t :=
  CondRow.mk 7 6 10 "Source Format" "is null" None None.

Definition cond_like : CondRow.t :=
  CondRow.mk 8 7 10 "Source Format" "LIKE" (Some 5) (Some "Unstructured").

Definition R1 : RuleRow.t :=
  RuleRow.mk 1 "R1" "Warning" true PNone 100 (Some "Source Format = Unstructured").

Definition R3 : RuleRow.t :=
  RuleRow.mk 3 "R3" "Error" true (PStr "Salesforce API") 300 (Some "  NULL").

Definition R4 : RuleRow.t :=
  RuleRow.mk 4 "R4" "Info" false PNone 400 (Some "  NULL").

Definition R5 : RuleRow.t :=
  RuleRow.mk 5 "R5" "Info" true (PStr "") 500 (Some "  NULL").

(** [R1] and [R4] as a frame with a string column shows them. *)
Definition R1_nan : RuleRow.t :=
  RuleRow.mk 1 "R1" "Warning" true PNaN 100 (Some "Source Format = Unstructured").

Definition R4_nan : RuleRow.t :=
  RuleRow.mk 4 "R4" "Info" false PNaN 400 (Some "  NULL").

(** A database with one rule, [R1], and the given preference rows and
    conditions. *)
Definition store_R1 (prefs : list (Z * Z)) (conds : list CondRow.t) : Store :=
  {| userNodePreference_select := λ _ _, prefs;
     warningRule_select := [R1];
     warningRuleCondition_select := λ _, conds |}.

(** A database with the rules [R4], [R3], [R1], where [R1] has the
    condition [cond_eq] and the other rules have none: user [alice] chose
    value 5 for node 10 under the data source [Workday API]. *)
Definition store_scenarios : Store :=
  {| userNodePreference_select := λ u ds,
       if bool_decide (u = "alice") && bool_decide (ds = "Workday API")
       then [(10, 5)] else [];
     warningRule_select := [R4; R3; R1];
     warningRuleCondition_select := λ rid,
       if bool_decide (rid = 1) then [cond_eq] else [] |}.

(** As [store_scenarios], without [R1]. *)
Definition store_skipped : Store :=
  {| userNodePreference_select := userNodePreference_select store_scenarios;
     warningRule_select := [R4; R3];
     warningRuleCondition_select := warningRuleCondition_select store_scenarios |}.

(** ** The page around the engine: what the widgets show *)

(** [str.strip()] on ASCII text: the white space of Python below 128 is
    tab to carriage return (9-13), the separators 28-31 and the space. *)
Definition is_space (a : ascii) : bool :=
  let n := nat_of_ascii a in
  (((9 <=? n) && (n <=? 13)) || ((28 <=? n) && (n <=? 32)))%nat.

Fixpoint lstrip (s : string) : string :=
  match s with
  | EmptyString => EmptyString
  | String a s' => if is_space a then lstrip s' else s
  end.

Fixpoint rstrip (s : string) : string :=
  match s with
  | EmptyString => EmptyString
  | String a s' =>
      match rstrip s' with
      | EmptyString => if is_space a then EmptyString else String a EmptyString
      | r => String a r
      end
  end.

Definition strip (s : string) : string := rstrip (lstrip s).

(** A text of white space only (the empty text included). *)
Fixpoint all_space (s : string) : bool :=
  match s with
  | EmptyString => true
  | String a s' => is_space a && all_space s'
  end.

(** What a handler puts on the page. *)
Inductive shown : Type :=
| st_warning (body : string)
| st_error (body : string)
| st_success (body : string)
| st_write (df : list Hit).

(** The handler of the button [Run preview] of the sidebar, for the texts
    typed into [User] and [Data Source]. *)
Definition run_preview (infer_string : bool)
    (prev_user prev_source : string) : DB shown :=
  if bool_decide (strip prev_source = "") then
    mret (st_warning "Enter a Data Source name to preview.")
  else
    df_hits ← evaluate_rules infer_string (strip prev_user) (strip prev_source);
    match df_hits with
    | [] => mret (st_success "No rules triggered.")
    | _ => mret (st_write df_hits)
    end.

(** ** The draft of a new rule in the session *)


(** A dictionary of the list stored under [new_rule_conds]. *)
Record DraftCond : Type := {
  node_id : Z;
  node_label : string;
  draft_operator : string;
  value_id : option Z;
  value_label : string
}.




(** [op_choice in ("=", "!=")]. *)
Definition needs_value (op_choice : string) : bool :=
  bool_decide (op_choice = "=") || bool_decide (op_choice = "!=").

(** The value picker of the condition builder: [vals_df] is the frame of
    [fetch_values_for_node] for the chosen node, as [(id, name)] rows, and
    [picked] is what the select box of the values returns. *)
Definition val_choice (node_choice : option (Z * string)) (op_choice : string)
    (vals_df : list (Z * string)) (picked : Z * string) : option (Z * string) :=
  match node_choice with
  | None => None
  | Some _ =>
      if needs_value op_choice then
        match vals_df with
        | [] => None
        | _ => Some picked
        end
      else None
  end.

(** The handler of [Add condition] of the builder of a new rule: the list
    under [new_rule_conds] afterwards, and the error shown if any. *)
Definition add_condition_click (node_choice : option (Z * string))
    (op_choice : string) (val_choice : option (Z * string))
    (conds : list DraftCond) : list DraftCond * option shown :=
  match node_choice with
  | None => (conds, Some (st_error "Choose a Pillar Node."))
  | Some node =>
      if needs_value op_choice && negb (bool_decide (is_Some val_choice)) then
        (conds, Some (st_error "Select a Value for '=' or '!='."))
      else
        ((conds ++ [ {| node_id := node.1;
                        node_label := node.2;
                        draft_operator := op_choice;
                        value_id := fst <$> val_choice;
                        value_label := from_option snd "NULL" val_choice |} ])%list,
         None)
  end.

(** The handler of [Add condition to rule] for an existing rule: the
    arguments [add_condition] is called with, or the error shown. *)
Definition add_condition_to_rule_click (rid : Z)
    (node_choice : option (Z * string)) (op_choice : string)
    (val_choice : option (Z * string)) : (Z * Z * string * option Z) + shown :=
  match node_choice with
  | None => inr (st_error "Pick a node.")
  | Some node =>
      if needs_value op_choice && negb (bool_decide (is_Some val_choice)) then
        inr (st_error "Pick a value for '=' or '!='.")
      else inl (rid, node.1, op_choice, fst <$> val_choice)
  end.

(** The operators the select boxes offer. *)
Definition OPERATORS : list string := ["="; "!="; "IS NULL"; "IS NOT NULL"].

(** A draft condition carries a value exactly when its operator compares
    with one. *)
Definition well_formed (d : DraftCond) : Prop :=
  is_Some (value_id d) ↔ needs_value (draft_operator d) = true.

(** ** Dates (helpers/utils.py) *)

(** A [datetime.date]. *)
Module Date.
Record t : Type := mk { year : Z; month : Z; day : Z }.
End Date.

Definition is_leap (year : Z) : bool :=
  ((year mod 4 =? 0) && (negb (year mod 100 =? 0) || (year mod 400 =? 0)))%Z.

Definition days_in_month (year month : Z) : Z :=
  if (month =? 2)%Z then (if is_leap year then 29 else 28)
  else if ((month =? 4) || (month =? 6) || (month =? 9) || (month =? 11))%Z then 30
  else 31.

(** The constructor [date(year, month, day)]: [None] stands for the
    [ValueError] it raises outside the years 1 to 9999, the months 1 to 12
    and the days of the month. *)
Definition date (year month day : Z) : option Date.t :=
  if ((1 <=? year) && (year <=? 9999) && (1 <=? month) && (month <=? 12)
      && (1 <=? day) && (day <=? days_in_month year month))%Z
  then Some (Date.mk year month day) else None.

(** [while month < 1: month += 12; year -= 1], the pair [(year, month)]
    when the loop is left. *)
Equations? month_loop (year month : Z) : Z * Z
  by wf (Z.to_nat (1 - month)) lt :=
  month_loop year month with Z_lt_dec month 1 := {
    | left _ => month_loop (year - 1) (month + 12);
    | right _ => (year, month) }.
Proof. lia. Qed.

Definition get_first_day_of_last_month (reference_date : Date.t)
    (months_ago : Z) : option Date.t :=
  let year := Date.year reference_date in
  let month := Date.month reference_date - months_ago in
  let ym := month_loop year month in
  date ym.1 ym.2 1.

(** * Properties *)

(** ** The monad *)

Lemma bind_Ok {A B : Type} (m : DB A) (k : A → DB B) (s s' : Store) (a : A) :
  m s = (Ok a, s') → (m ≫= k) s = k a s'.
Proof. intros H. unfold mbind, DB_bind. now rewrite H. Qed.

Lemma bind_Raise {A B : Type} (m : DB A) (k : A → DB B) (s s' : Store) (e : exn) :
  m s = (Raise e, s') → (m ≫= k) s = (Raise e, s').
Proof. intros H. unfold mbind, DB_bind. now rewrite H. Qed.

Lemma read_only_ret {A : Type} (a : A) : read_only (mret a : DB A).
Proof. intros s. reflexivity. Qed.

Lemma read_only_lift {A : Type} (r : result A) : read_only (lift r).
Proof. intros s. reflexivity. Qed.

Lemma read_only_read_sql {A : Type} (q : Store → A) : read_only (read_sql q).
Proof. intros s. reflexivity. Qed.

Lemma read_only_bind {A B : Type} (m : DB A) (k : A → DB B) :
  read_only m → (∀ a, read_only (k a)) → read_only (m ≫= k).
Proof.
  intros Hm Hk s. unfold mbind, DB_bind.
  specialize (Hm s). destruct (m s) as [[a|e] s']; simpl in *; subst s'.
  - apply Hk.
  - reflexivity.
Qed.

Create HintDb read_only.

#[local] Hint Resolve read_only_ret read_only_lift read_only_read_sql
  read_only_bind : read_only.

(** ** Strings *)

Lemma upper_char_idemp (a : ascii) : upper_char (upper_char a) = upper_char a.
Proof. destruct a as [[] [] [] [] [] [] [] []]; reflexivity. Qed.

Lemma upper_idemp (s : string) : upper (upper s) = upper s.
Proof.
  induction s as [|a s IH]; simpl; [reflexivity|].
  now rewrite upper_char_idemp, IH.
Qed.

Lemma upper_known (op : string) : op ∈ known_operators → upper op = op.
Proof.
  unfold known_operators. rewrite !elem_of_cons, elem_of_nil.
  intros [->|[->|[->|[->|[->|[]]]]]]; reflexivity.
Qed.

(** ** One condition *)

Section Condition.
Variable prefs : gmap Z Z.
Variable c : CondRow.t.

Let val : option Z := prefs !! CondRow.pillarNode_id c.
Let target : option Z := CondRow.pillarNodeValue_id c.

Lemma cond_step_eq (ok : bool) :
  upper (CondRow.operator c) = "=" →
  cond_step prefs ok c = ok && py_eq val target.
Proof. intros H. unfold cond_step. rewrite H. reflexivity. Qed.

Lemma cond_step_neq (ok : bool) :
  upper (CondRow.operator c) = "!=" ∨ upper (CondRow.operator c) = "<>" →
  cond_step prefs ok c = ok && (is_None val || negb (py_eq val target)).
Proof. intros [H|H]; unfold cond_step; rewrite H; reflexivity. Qed.

Lemma cond_step_is_null (ok : bool) :
  upper (CondRow.operator c) = "IS NULL" →
  cond_step prefs ok c = ok && is_None val.
Proof. intros H. unfold cond_step. rewrite H. reflexivity. Qed.

Lemma cond_step_is_not_null (ok : bool) :
  upper (CondRow.operator c) = "IS NOT NULL" →
  cond_step prefs ok c = ok && negb (is_None val).
Proof. intros H. unfold cond_step. rewrite H. reflexivity. Qed.

Lemma cond_step_unknown (ok : bool) :
  upper (CondRow.operator c) ∉ known_operators →
  cond_step prefs ok c = false.
Proof.
  unfold known_operators. rewrite !not_elem_of_cons.
  intros (H1 & H2 & H3 & H4 & H5 & _). unfold cond_step.
  rewrite !bool_decide_eq_false_2 by assumption. reflexivity.
Qed.

(** [ok &= ...] can only lower [ok]. *)
Lemma cond_step_false : cond_step prefs false c = false.
Proof. unfold cond_step. repeat case_match; reflexivity. Qed.

End Condition.

Lemma py_eq_true (val target : option Z) : py_eq val target = true ↔ val = target.
Proof. unfold py_eq. apply bool_decide_eq_true. Qed.

Lemma is_None_true (val : option Z) : is_None val = true ↔ val = None.
Proof. destruct val; simpl; split; congruence. Qed.

(** ** The conditions of a rule *)

Lemma conds_loop_false (prefs : gmap Z Z) (conds : list CondRow.t) :
  conds_loop prefs false conds = false.
Proof. destruct conds; simpl; [reflexivity|]. now rewrite cond_step_false. Qed.

(** The loop computes the conjunction of the conditions. *)
Lemma conds_loop_forallb (prefs : gmap Z Z) (conds : list CondRow.t) :
  conds_loop prefs true conds = forallb (cond_step prefs true) conds.
Proof.
  induction conds as [|c conds IH]; simpl; [reflexivity|].
  destruct (cond_step prefs true c); simpl; [exact IH | reflexivity].
Qed.

Lemma conds_loop_true (prefs : gmap Z Z) (conds : list CondRow.t) :
  conds_loop prefs true conds = true ↔
  ∀ c, c ∈ conds → cond_step prefs true c = true.
Proof.
  rewrite conds_loop_forallb, forallb_forall.
  split; intros H c Hc; apply H; now apply list_elem_of_In.
Qed.

(** ** One rule *)

(** Building the hit fails on its last attribute: [message] is not a field
    of the tuples of [list_rules]. *)
Lemma make_hit_Pandas (i : nat) (r : RuleRow.t) :
  make_hit (Pandas i r) = Raise (AttributeError "message").
Proof. reflexivity. Qed.

Lemma rule_step_inactive (prefs : gmap Z Z) (ds : string) (hits : list Hit)
    (ir : nat * RuleRow.t) (s : Store) :
  RuleRow.isActive ir.2 = false → rule_step prefs ds hits ir s = (Ok hits, s).
Proof. intros H. unfold rule_step. rewrite H. reflexivity. Qed.

Lemma rule_step_other_source (prefs : gmap Z Z) (ds : string) (hits : list Hit)
    (ir : nat * RuleRow.t) (s : Store) :
  other_source ir.2 ds = true → rule_step prefs ds hits ir s = (Ok hits, s).
Proof.
  intros H. unfold rule_step. rewrite H.
  destruct (RuleRow.isActive ir.2); reflexivity.
Qed.

Lemma rule_step_not_ok (prefs : gmap Z Z) (ds : string) (hits : list Hit)
    (ir : nat * RuleRow.t) (s : Store) :
  conds_loop prefs true (warningRuleCondition_select s (RuleRow.id ir.2)) = false →
  rule_step prefs ds hits ir s = (Ok hits, s).
Proof.
  intros H. unfold rule_step.
  destruct (RuleRow.isActive ir.2); simpl; [|reflexivity].
  destruct (other_source ir.2 ds); simpl; [reflexivity|].
  unfold fetch_rule_conditions, read_sql, mbind, DB_bind. now rewrite H.
Qed.

Lemma rule_step_skip (prefs : gmap Z Z) (ds : string) (hits : list Hit)
    (ir : nat * RuleRow.t) (s : Store) :
  in_scope ds ir = false → rule_step prefs ds hits ir s = (Ok hits, s).
Proof.
  unfold in_scope. intros [H|H]%andb_false_iff.
  - now apply rule_step_inactive.
  - apply rule_step_other_source. now destruct (other_source ir.2 ds).
Qed.

(** What one turn of the loop over the rules does. *)
Lemma rule_step_spec (prefs : gmap Z Z) (ds : string) (hits : list Hit)
    (ir : nat * RuleRow.t) (s : Store) :
  rule_step prefs ds hits ir s =
  (if rule_fires prefs ds s ir.2 then Raise (AttributeError "message")
   else Ok hits, s).
Proof.
  unfold rule_fires.
  destruct (RuleRow.isActive ir.2) eqn:Ha; simpl.
  2: now rewrite rule_step_inactive.
  destruct (other_source ir.2 ds) eqn:Hs; simpl.
  1: now rewrite rule_step_other_source.
  destruct (conds_loop _ _ _) eqn:Hc.
  2: now rewrite rule_step_not_ok.
  unfold rule_step. rewrite Ha, Hs. simpl.
  unfold fetch_rule_conditions, read_sql, mbind, DB_bind. rewrite Hc.
  reflexivity.
Qed.

(** ** All rules *)

Lemma rules_loop_spec (prefs : gmap Z Z) (ds : string)
    (rules : list (nat * RuleRow.t)) (hits : list Hit) (s : Store) :
  rules_loop prefs ds hits rules s =
  (if existsb (λ ir, rule_fires prefs ds s ir.2) rules
   then Raise (AttributeError "message") else Ok hits, s).
Proof.
  induction rules as [|ir rules IH]; simpl; [reflexivity|].
  unfold mbind, DB_bind. rewrite rule_step_spec.
  destruct (rule_fires prefs ds s ir.2); simpl; [reflexivity | apply IH].
Qed.

(** Rows that are skipped can be taken out of the loop. *)
Lemma rules_loop_filter (prefs : gmap Z Z) (ds : string)
    (rules : list (nat * RuleRow.t)) (hits : list Hit) (s : Store) :
  rules_loop prefs ds hits rules s =
  rules_loop prefs ds hits (List.filter (in_scope ds) rules) s.
Proof.
  revert hits s. induction rules as [|ir rules IH]; intros hits s; simpl.
  - reflexivity.
  - destruct (in_scope ds ir) eqn:Hin; simpl.
    + unfold mbind, DB_bind.
      destruct (rule_step prefs ds hits ir s) as [[hits'|e] s']; [apply IH | reflexivity].
    + erewrite bind_Ok by (now apply rule_step_skip). apply IH.
Qed.

Lemma snd_imap_pair {A : Type} (g : nat → nat) (df : list A) :
  (imap (λ i r, (g i, r)) df).*2 = df.
Proof.
  revert g. induction df as [|r df IH]; intros g; simpl; [reflexivity|].
  f_equal. exact (IH (λ i, g (S i))).
Qed.

Lemma snd_itertuples {A : Type} (df : list A) : (itertuples df).*2 = df.
Proof. exact (snd_imap_pair (λ i, i) df). Qed.

Lemma existsb_snd {A B : Type} (f : B → bool) (l : list (A * B)) :
  existsb (λ x, f x.2) l = existsb f (l.*2).
Proof. induction l as [|x l IH]; simpl; [reflexivity | now rewrite IH]. Qed.

(** ** The frame of the rules *)

Lemma read_frame_no_inference (rows : list RuleRow.t) :
  read_frame false rows = rows.
Proof. reflexivity. Qed.

Lemma read_frame_plain (infer_string : bool) (rows : list RuleRow.t) :
  string_column infer_string (RuleRow.dataSourceFilter <$> rows) = false →
  read_frame infer_string rows = rows.
Proof. intros H. unfold read_frame. now rewrite H. Qed.

(** A row of the frame comes from a row of the answer, with the same
    columns but for the filter, which is the same or a missing value
    shown as [NaN]. *)
Lemma read_frame_elem (infer_string : bool) (rows : list RuleRow.t)
    (r' : RuleRow.t) :
  r' ∈ read_frame infer_string rows →
  ∃ r, r ∈ rows ∧
    RuleRow.id r' = RuleRow.id r ∧ RuleRow.isActive r' = RuleRow.isActive r ∧
    ((string_column infer_string (RuleRow.dataSourceFilter <$> rows) = false ∧ r' = r) ∨
     (string_column infer_string (RuleRow.dataSourceFilter <$> rows) = true ∧
      is_missing (RuleRow.dataSourceFilter r) = false ∧ r' = r) ∨
     (string_column infer_string (RuleRow.dataSourceFilter <$> rows) = true ∧
      is_missing (RuleRow.dataSourceFilter r) = true ∧
      RuleRow.dataSourceFilter r' = PNaN)).
Proof.
  unfold read_frame.
  destruct (string_column _ _) eqn:Hc.
  - intros (r & -> & Hr)%list_elem_of_fmap. exists r. split; [exact Hr|].
    destruct (is_missing (RuleRow.dataSourceFilter r)) eqn:Hm; simpl.
    + repeat split. right. right. now repeat split.
    + repeat split. right. left. now repeat split.
  - intros Hr. exists r'. split; [exact Hr|]. repeat split. now left.
Qed.

(** The outcome of [evaluate_rules]: the state is the one it started in;
    the result is an empty frame when no rule of the frame fires, and the
    exception of [make_hit] as soon as one does. *)
Lemma evaluate_rules_spec (infer_string : bool)
    (user_name data_source : string) (s : Store) :
  evaluate_rules infer_string user_name data_source s =
  (if existsb (rule_fires (dict_of_rows
                 (userNodePreference_select s user_name data_source))
                 data_source s)
        (read_frame infer_string (warningRule_select s))
   then Raise (AttributeError "message") else Ok [], s).
Proof.
  unfold evaluate_rules, fetch_user_pref_map, list_rules, read_sql.
  unfold mbind, DB_bind, mret, DB_ret. simpl.
  rewrite rules_loop_spec.
  rewrite (existsb_snd (rule_fires _ data_source s)), snd_itertuples.
  reflexivity.
Qed.

(** ** The preference map *)

Lemma fetch_user_pref_map_spec (user_name data_source : string) (s : Store) :
  fetch_user_pref_map user_name data_source s =
  (Ok (dict_of_rows (userNodePreference_select s user_name data_source)), s).
Proof. reflexivity. Qed.

Lemma foldl_insert_lookup_None (rows : list (Z * Z)) (d : gmap Z Z) (n : Z) :
  foldl (λ d r, <[r.1 := r.2]> d) d rows !! n = None ↔
  d !! n = None ∧ n ∉ (rows.*1).
Proof.
  revert d. induction rows as [|[k v] rows IH]; intros d; simpl.
  - rewrite elem_of_nil. tauto.
  - rewrite IH, lookup_insert_None, not_elem_of_cons. simpl.
    intuition congruence.
Qed.

(** A node has no entry in the map exactly when no row is stored for it. *)
Lemma dict_of_rows_None (rows : list (Z * Z)) (n : Z) :
  dict_of_rows rows !! n = None ↔ n ∉ (rows.*1).
Proof.
  unfold dict_of_rows. rewrite foldl_insert_lookup_None, lookup_empty. tauto.
Qed.

Lemma foldl_insert_lookup_Some (rows : list (Z * Z)) (d : gmap Z Z) (n v : Z) :
  NoDup (rows.*1) →
  (foldl (λ d r, <[r.1 := r.2]> d) d rows !! n = Some v ↔
   (n, v) ∈ rows ∨ ((n ∉ rows.*1) ∧ d !! n = Some v)).
Proof.
  revert d. induction rows as [|[k w] rows IH]; intros d Hnd; simpl.
  - rewrite elem_of_nil. pose proof (not_elem_of_nil n). tauto.
  - apply NoDup_cons in Hnd as [Hk Hnd]. simpl in *.
    rewrite (IH _ Hnd), elem_of_cons, not_elem_of_cons, lookup_insert_Some.
    split.
    + intros [H|[Hn [[-> ->]|[Hne Hd]]]].
      * left. now right.
      * left. now left.
      * right. repeat split; [congruence | exact Hn | exact Hd].
    + intros [[E|H]|[[Hne Hn] Hd]].
      * injection E as -> ->. right. split; [exact Hk | now left].
      * now left.
      * right. split; [exact Hn | right; split; [congruence | exact Hd]].
Qed.

(** With one row per node (the primary key of the table), the map holds
    exactly the stored rows. *)
Lemma dict_of_rows_Some (rows : list (Z * Z)) (n v : Z) :
  NoDup (rows.*1) → (dict_of_rows rows !! n = Some v ↔ (n, v) ∈ rows).
Proof.
  intros Hnd. unfold dict_of_rows.
  rewrite (foldl_insert_lookup_Some _ _ _ _ Hnd), lookup_empty.
  split; [intros [H|[_ H]]; [exact H | discriminate] | now left].
Qed.

(** ** The operators *)

(** C1. A condition with operator [!=] (or [<>]) and target value [V],
    read against the preference map of a user and data source, matches
    when the map has no selection for the node of the condition, matches
    when the selection is a value other than [V], and does not match when
    the selection is [V]. *)
Theorem neq_condition_matches (prefs : gmap Z Z) (c : CondRow.t) (V : Z) :
  CondRow.operator c = "!=" ∨ CondRow.operator c = "<>" →
  CondRow.pillarNodeValue_id c = Some V →
  (prefs !! CondRow.pillarNode_id c = None → cond_step prefs true c = true) ∧
  (∀ v, prefs !! CondRow.pillarNode_id c = Some v → v ≠ V →
        cond_step prefs true c = true) ∧
  (prefs !! CondRow.pillarNode_id c = Some V → cond_step prefs true c = false).
Proof.
  intros Hop Ht.
  assert (Hup : upper (CondRow.operator c) = "!=" ∨
                upper (CondRow.operator c) = "<>")
    by (destruct Hop as [-> | ->]; [left | right]; reflexivity).
  rewrite (cond_step_neq _ _ _ Hup), Ht. simpl.
  repeat split.
  - intros ->. reflexivity.
  - intros v -> Hv. simpl. unfold py_eq.
    rewrite bool_decide_eq_false_2; [reflexivity | congruence].
  - intros ->. simpl. unfold py_eq. now rewrite bool_decide_eq_true_2.
Qed.

(** Scenario C of the specification: node 20 holds value 9, the condition
    is [node 20 != 7]. *)
Lemma neq_condition_matches_witness :
  cond_step {[20 := 9]} true cond_neq = true.
Proof.
  refine (proj1 (proj2 (neq_condition_matches {[20 := 9]} cond_neq 7 _ _)) 9 _ _).
  - left. reflexivity.
  - reflexivity.
  - reflexivity.
  - lia.
Defined.

(** C2, as the code has it.  A condition with operator [=] matches if
    and only if the selection stored for its node equals its target, an
    absent selection and an absent target being equal; so, with no
    selection stored, the condition does not match any target value that
    is recorded. *)
Theorem eq_condition_matches (prefs : gmap Z Z) (c : CondRow.t) :
  CondRow.operator c = "=" →
  (cond_step prefs true c = true ↔
   prefs !! CondRow.pillarNode_id c = CondRow.pillarNodeValue_id c) ∧
  (∀ V, CondRow.pillarNodeValue_id c = Some V →
        prefs !! CondRow.pillarNode_id c = None →
        cond_step prefs true c = false).
Proof.
  intros Hop.
  assert (Hup : upper (CondRow.operator c) = "=") by (now rewrite Hop).
  rewrite (cond_step_eq _ _ _ Hup). simpl. split.
  - apply py_eq_true.
  - intros V -> ->. reflexivity.
Qed.

(** Scenario A of the specification: nothing stored for node 10, the
    condition is [node 10 = 5]. *)
Lemma eq_condition_matches_witness :
  cond_step ∅ true cond_eq = false.
Proof.
  refine (proj2 (eq_condition_matches ∅ cond_eq _) 5 _ _); reflexivity.
Defined.

(** C2 as stated fails: with no selection stored for node 10, the
    condition [node 10 = NULL] matches. *)
Lemma eq_absent_target_matches :
  CondRow.operator cond_eq_no_target = "=" ∧
  (∅ : gmap Z Z) !! CondRow.pillarNode_id cond_eq_no_target = None ∧
  CondRow.pillarNodeValue_id cond_eq_no_target = None ∧
  cond_step ∅ true cond_eq_no_target = true.
Proof. repeat split. Qed.

(** C3, as the code has it.  A condition with operator [=] or [!=] whose
    target is absent is read like any other, by a total function that
    cannot raise: with [=] it matches exactly when no selection is stored
    for its node, with [!=] or [<>] it matches whatever is stored. *)
Theorem absent_target_condition (prefs : gmap Z Z) (c : CondRow.t) :
  CondRow.pillarNodeValue_id c = None →
  (CondRow.operator c = "=" →
   cond_step prefs true c = is_None (prefs !! CondRow.pillarNode_id c)) ∧
  (CondRow.operator c = "!=" ∨ CondRow.operator c = "<>" →
   cond_step prefs true c = true).
Proof.
  intros Ht. split.
  - intros Hop.
    assert (Hup : upper (CondRow.operator c) = "=") by (now rewrite Hop).
    rewrite (cond_step_eq _ _ _ Hup), Ht. simpl.
    now destruct (prefs !! CondRow.pillarNode_id c).
  - intros Hop.
    assert (Hup : upper (CondRow.operator c) = "!=" ∨
                  upper (CondRow.operator c) = "<>")
      by (destruct Hop as [-> | ->]; [left | right]; reflexivity).
    rewrite (cond_step_neq _ _ _ Hup), Ht. simpl.
    now destruct (prefs !! CondRow.pillarNode_id c).
Qed.

Lemma absent_target_condition_witness :
  cond_step {[10 := 5]} true cond_eq_no_target = is_None (Some 5).
Proof.
  refine (proj1 (absent_target_condition {[10 := 5]} cond_eq_no_target _) _);
    reflexivity.
Defined.

(** C3 as stated fails: the condition [node 20 != NULL], which has no
    target, matches (here with value 9 stored for node 20), and the rule
    that has only this condition reaches the point where its hit is
    built. *)
Lemma neq_absent_target_matches :
  CondRow.operator cond_neq_no_target = "!=" ∧
  CondRow.pillarNodeValue_id cond_neq_no_target = None ∧
  cond_step {[20 := 9]} true cond_neq_no_target = true ∧
  rule_fires {[20 := 9]} "Workday API"
    (store_R1 [(20, 9)] [cond_neq_no_target]) R1 = true.
Proof. repeat split. Qed.

(** C7. For a node and a preference map, the conditions [IS NULL] and
    [IS NOT NULL] on the node are complements: the first matches if and
    only if no selection is stored for the node, the second if and only
    if one is stored, and exactly one of them matches. *)
Theorem null_checks_complement (prefs : gmap Z Z) (c1 c2 : CondRow.t) :
  CondRow.operator c1 = "IS NULL" →
  CondRow.operator c2 = "IS NOT NULL" →
  CondRow.pillarNode_id c1 = CondRow.pillarNode_id c2 →
  (cond_step prefs true c1 = true ↔ prefs !! CondRow.pillarNode_id c1 = None) ∧
  (cond_step prefs true c2 = true ↔ is_Some (prefs !! CondRow.pillarNode_id c1)) ∧
  cond_step prefs true c1 = negb (cond_step prefs true c2).
Proof.
  intros H1 H2 Hn.
  assert (Hup1 : upper (CondRow.operator c1) = "IS NULL") by (now rewrite H1).
  assert (Hup2 : upper (CondRow.operator c2) = "IS NOT NULL") by (now rewrite H2).
  rewrite (cond_step_is_null _ _ _ Hup1), (cond_step_is_not_null _ _ _ Hup2).
  rewrite <- Hn. simpl.
  destruct (prefs !! CondRow.pillarNode_id c1) as [v|]; simpl; repeat split;
    try discriminate; try (intros [? ?]; discriminate); eauto.
Qed.

Lemma null_checks_complement_witness :
  cond_step {[10 := 5]} true cond_is_null =
  negb (cond_step {[10 := 5]} true cond_is_not_null).
Proof.
  refine (proj2 (proj2 (null_checks_complement {[10 := 5]}
            cond_is_null cond_is_not_null _ _ _))); reflexivity.
Defined.

Lemma operator_case_insensitive_aux (prefs : gmap Z Z) (ok : bool)
    (c c' : CondRow.t) :
  upper (CondRow.operator c) = upper (CondRow.operator c') →
  CondRow.pillarNode_id c = CondRow.pillarNode_id c' →
  CondRow.pillarNodeValue_id c = CondRow.pillarNodeValue_id c' →
  cond_step prefs ok c = cond_step prefs ok c'.
Proof. intros Hop Hn Ht. unfold cond_step. now rewrite Hop, Hn, Ht. Qed.

Lemma upper_lower_char (a : ascii) : upper_char (lower_char a) = upper_char a.
Proof. destruct a as [[] [] [] [] [] [] [] []]; reflexivity. Qed.

Lemma upper_lower (s : string) : upper (lower s) = upper s.
Proof.
  induction s as [|a s IH]; simpl; [reflexivity|].
  now rewrite upper_lower_char, IH.
Qed.

(** Texts that differ only in the case of their letters have the same
    upper-case form. *)
Lemma lower_eq_upper_eq (s t : string) : lower s = lower t → upper s = upper t.
Proof. intros H. now rewrite <- (upper_lower s), <- (upper_lower t), H. Qed.

(** C10. The operator is compared without regard to the case of its
    letters: two conditions on the same node and target whose operators
    differ only in case give the same result; in particular an operator
    that is [IS NULL] or [IS NOT NULL] up to case is read by the branch
    of that operator, not as an unknown one. *)
Theorem operator_case_insensitive (prefs : gmap Z Z) (ok : bool)
    (c c' : CondRow.t) :
  lower (CondRow.operator c) = lower (CondRow.operator c') →
  CondRow.pillarNode_id c = CondRow.pillarNode_id c' →
  CondRow.pillarNodeValue_id c = CondRow.pillarNodeValue_id c' →
  cond_step prefs ok c = cond_step prefs ok c' ∧
  (CondRow.operator c' = "IS NULL" →
   cond_step prefs ok c = ok && is_None (prefs !! CondRow.pillarNode_id c)) ∧
  (CondRow.operator c' = "IS NOT NULL" →
   cond_step prefs ok c = ok && negb (is_None (prefs !! CondRow.pillarNode_id c))).
Proof.
  intros Hop%lower_eq_upper_eq Hn Ht. split; [|split].
  - now apply operator_case_insensitive_aux.
  - intros H'. apply cond_step_is_null. now rewrite Hop, H'.
  - intros H'. apply cond_step_is_not_null. now rewrite Hop, H'.
Qed.

(** [is null], in lower case, is read as [IS NULL]: it matches when
    nothing is stored for the node. *)
Lemma operator_case_insensitive_witness :
  cond_step ∅ true cond_is_null_lower = cond_step ∅ true cond_is_null ∧
  cond_step ∅ true cond_is_null_lower = true.
Proof.
  split.
  - refine (proj1 (operator_case_insensitive ∅ true cond_is_null_lower
                     cond_is_null _ _ _)); reflexivity.
  - refine (proj1 (proj2 (operator_case_insensitive ∅ true cond_is_null_lower
                            cond_is_null _ _ _)) _); reflexivity.
Defined.

(** [Is Not Null], in mixed case, is read as [IS NOT NULL]. *)
Lemma mixed_case_is_not_null (prefs : gmap Z Z) (ok : bool) (c : CondRow.t) :
  CondRow.operator c = "Is Not Null" →
  cond_step prefs ok c = ok && negb (is_None (prefs !! CondRow.pillarNode_id c)).
Proof. intros H. apply cond_step_is_not_null. now rewrite H. Qed.

(** The operator of a condition may be replaced by its upper-case form. *)
Lemma cond_step_upper (prefs : gmap Z Z) (ok : bool) (c : CondRow.t) :
  cond_step prefs ok c =
  cond_step prefs ok
    (CondRow.mk (CondRow.id c) (CondRow.rule_id c) (CondRow.pillarNode_id c)
       (CondRow.pillarNode c) (upper (CondRow.operator c))
       (CondRow.pillarNodeValue_id c) (CondRow.pillarNodeValue c)).
Proof.
  apply operator_case_insensitive_aux; simpl; auto using upper_idemp.
Qed.

(** ** Unknown operators *)

(** C8, as the code has it.  A rule that has a condition whose operator,
    once in upper case, is none of [=], [!=], [<>], [IS NULL],
    [IS NOT NULL] leaves the loop over its conditions with [ok] false: it
    does not fire, its turn of the loop over the rules adds no hit and
    raises nothing. *)
Theorem unknown_operator_fails (prefs : gmap Z Z) (ds : string)
    (hits : list Hit) (ir : nat * RuleRow.t) (s : Store) (c : CondRow.t) :
  upper (CondRow.operator c) ∉ known_operators →
  c ∈ warningRuleCondition_select s (RuleRow.id ir.2) →
  conds_loop prefs true (warningRuleCondition_select s (RuleRow.id ir.2)) = false ∧
  rule_fires prefs ds s ir.2 = false ∧
  rule_step prefs ds hits ir s = (Ok hits, s).
Proof.
  intros Hop Hc.
  assert (Hloop : conds_loop prefs true
                    (warningRuleCondition_select s (RuleRow.id ir.2)) = false).
  { apply not_true_is_false. intros Hok.
    pose proof (proj1 (conds_loop_true _ _) Hok c Hc) as Hstep.
    rewrite (cond_step_unknown _ _ _ Hop) in Hstep. discriminate. }
  split; [exact Hloop|]. split.
  - unfold rule_fires. rewrite Hloop. apply andb_false_r.
  - now apply rule_step_not_ok.
Qed.

(** The rule [R1] with the conditions [node 10 = 5] and [node 10 LIKE 5],
    for a user who chose value 5 for node 10. *)
Lemma unknown_operator_fails_witness :
  rule_step {[10 := 5]} "Workday API" [] (0%nat, R1)
    (store_R1 [(10, 5)] [cond_eq; cond_like])
  = (Ok [], store_R1 [(10, 5)] [cond_eq; cond_like]).
Proof.
  refine (proj2 (proj2 (unknown_operator_fails {[10 := 5]} "Workday API" []
            (0%nat, R1) (store_R1 [(10, 5)] [cond_eq; cond_like]) cond_like _ _))).
  - unfold known_operators. rewrite !not_elem_of_cons.
    repeat split; try discriminate. apply not_elem_of_nil.
  - simpl. apply list_elem_of_In. right. left. reflexivity.
Defined.

(** C8 as stated fails: the operator string [is null] is none of the five
    strings, and the rule that has only the condition [node 10 is null]
    fires when nothing is stored for node 10. *)
Lemma lower_case_operator_matches :
  (CondRow.operator cond_is_null_lower ∉ known_operators) ∧
  conds_loop ∅ true [cond_is_null_lower] = true ∧
  rule_fires ∅ "Workday API" (store_R1 [] [cond_is_null_lower]) R1 = true.
Proof.
  split; [|split; reflexivity].
  unfold known_operators. rewrite !not_elem_of_cons.
  repeat split; try discriminate. apply not_elem_of_nil.
Qed.

(** ** Rules that are skipped *)

Lemma other_source_blank (r : RuleRow.t) (ds : string) :
  RuleRow.dataSourceFilter r = PNone ∨ RuleRow.dataSourceFilter r = PStr "" →
  other_source r ds = false.
Proof. intros [H|H]; unfold other_source; rewrite H; reflexivity. Qed.

Lemma other_source_differs (r : RuleRow.t) (ds f : string) :
  RuleRow.dataSourceFilter r = PStr f → f ≠ "" → f ≠ ds →
  other_source r ds = true.
Proof.
  intros H Hne Hds. unfold other_source. rewrite H. simpl.
  now rewrite !bool_decide_eq_false_2.
Qed.

(** A filter that reaches the loop as [NaN] is true and differs from
    every data source. *)
Lemma other_source_nan (r : RuleRow.t) (ds : string) :
  RuleRow.dataSourceFilter r = PNaN → other_source r ds = true.
Proof. intros H. unfold other_source. now rewrite H. Qed.

Lemma rules_loop_remove (prefs : gmap Z Z) (ds : string) (hits : list Hit)
    (ir : nat * RuleRow.t) (s : Store) (before after : list (nat * RuleRow.t)) :
  in_scope ds ir = false →
  rules_loop prefs ds hits (before ++ ir :: after)%list s =
  rules_loop prefs ds hits (before ++ after)%list s.
Proof.
  intros Hin.
  rewrite (rules_loop_filter _ _ (before ++ ir :: after)%list).
  rewrite (rules_loop_filter _ _ (before ++ after)%list).
  rewrite !List.filter_app. simpl. now rewrite Hin.
Qed.

(** X19. What holds of the test on the rules in every frame.  A rule that
    is not active, and a rule whose data source filter is a text that is
    not empty and differs from the data source asked for, is skipped:
    its turn of the loop leaves the hits as they are, whatever its
    conditions and the preferences, and the evaluation ends as it does
    without the rule.  A filter that reaches the loop as [None] or as
    the empty text passes the test for every data source. *)
Lemma skipped_rules_never_hit (prefs : gmap Z Z) (ds : string)
    (hits : list Hit) (ir : nat * RuleRow.t) (s : Store) :
  (RuleRow.isActive ir.2 = false →
   rule_step prefs ds hits ir s = (Ok hits, s) ∧
   ∀ before after,
     rules_loop prefs ds hits (before ++ ir :: after)%list s =
     rules_loop prefs ds hits (before ++ after)%list s) ∧
  (∀ f, RuleRow.dataSourceFilter ir.2 = PStr f → f ≠ "" → f ≠ ds →
   rule_step prefs ds hits ir s = (Ok hits, s) ∧
   ∀ before after,
     rules_loop prefs ds hits (before ++ ir :: after)%list s =
     rules_loop prefs ds hits (before ++ after)%list s) ∧
  (RuleRow.dataSourceFilter ir.2 = PNone ∨ RuleRow.dataSourceFilter ir.2 = PStr "" →
   other_source ir.2 ds = false).
Proof.
  split; [|split].
  - intros Ha. split; [now apply rule_step_inactive|].
    intros before after. apply rules_loop_remove.
    unfold in_scope. now rewrite Ha.
  - intros f Hf Hne Hds.
    pose proof (other_source_differs _ _ _ Hf Hne Hds) as Hs.
    split; [now apply rule_step_other_source|].
    intros before after. apply rules_loop_remove.
    unfold in_scope. rewrite Hs. apply andb_false_r.
  - apply other_source_blank.
Qed.

(** Scenarios D and E of the specification: [R3] is for [Salesforce API]
    and the evaluation is for [Workday API]; [R4] is inactive and has no
    condition. *)
Lemma skipped_rules_never_hit_scenarios :
  rule_step {[10 := 5]} "Workday API" [] (0%nat, R4) store_scenarios
    = (Ok [], store_scenarios) ∧
  rule_step {[10 := 5]} "Workday API" [] (1%nat, R3) store_scenarios
    = (Ok [], store_scenarios) ∧
  other_source R5 "Workday API" = false.
Proof.
  split; [|split].
  - refine (proj1 (proj1 (skipped_rules_never_hit {[10 := 5]} "Workday API" []
              (0%nat, R4) store_scenarios) _)). reflexivity.
  - refine (proj1 (proj1 (proj2 (skipped_rules_never_hit {[10 := 5]}
              "Workday API" [] (1%nat, R3) store_scenarios))
              "Salesforce API" _ _ _)); [reflexivity | discriminate | discriminate].
  - refine (proj2 (proj2 (skipped_rules_never_hit {[10 := 5]} "Workday API" []
              (0%nat, R5) store_scenarios)) _). right. reflexivity.
Defined.

(** Without string inference, and in a frame whose filters are all
    NULL, an unset filter reaches the loop as [None] and the rule is in
    scope for every data source. *)
Lemma unset_filter_in_scope (infer_string : bool) (rows : list RuleRow.t)
    (r : RuleRow.t) (ds : string) :
  string_column infer_string (RuleRow.dataSourceFilter <$> rows) = false →
  r ∈ rows →
  RuleRow.dataSourceFilter r = PNone →
  r ∈ read_frame infer_string rows ∧ other_source r ds = false.
Proof.
  intros Hc Hr H. rewrite (read_frame_plain _ _ Hc).
  split; [exact Hr | apply other_source_blank; now left].
Qed.

(** C6 on the code.  In the database of the scenarios the rule [R1] is
    active, has no filter, and its condition matches for [alice]; [R3]
    has a text as its filter.  With string inference the frame shows the
    missing filter of [R1] as [NaN], which is true and differs from every
    data source: the loop skips [R1] and [evaluate_rules] returns the
    empty frame, where without string inference [R1] is in scope and
    fires. *)
Theorem unset_filter_read_as_nan :
  warningRule_select store_scenarios = [R4; R3; R1] ∧
  RuleRow.isActive R1 = true ∧
  RuleRow.dataSourceFilter R1 = PNone ∧
  conds_loop {[10 := 5]} true
    (warningRuleCondition_select store_scenarios (RuleRow.id R1)) = true ∧
  read_frame true (warningRule_select store_scenarios) = [R4_nan; R3; R1_nan] ∧
  (∀ ds, other_source R1_nan ds = true) ∧
  (∀ hits, rule_step {[10 := 5]} "Workday API" hits (2%nat, R1_nan) store_scenarios
           = (Ok hits, store_scenarios)) ∧
  evaluate_rules true "alice" "Workday API" store_scenarios
    = (Ok [], store_scenarios) ∧
  evaluate_rules false "alice" "Workday API" store_scenarios
    = (Raise (AttributeError "message"), store_scenarios).
Proof. repeat split. Qed.

(** ** The whole evaluation *)

Lemma read_only_rule_step (prefs : gmap Z Z) (ds : string) (hits : list Hit)
    (ir : nat * RuleRow.t) :
  read_only (rule_step prefs ds hits ir).
Proof.
  unfold rule_step, fetch_rule_conditions.
  destruct (negb _); [auto with read_only|].
  destruct (other_source _ _); [auto with read_only|].
  apply read_only_bind; [auto with read_only|].
  intros conds. destruct (conds_loop _ _ _); auto with read_only.
Qed.

Lemma read_only_rules_loop (prefs : gmap Z Z) (ds : string)
    (rules : list (nat * RuleRow.t)) (hits : list Hit) :
  read_only (rules_loop prefs ds hits rules).
Proof.
  revert hits. induction rules as [|ir rules IH]; intros hits; simpl.
  - auto with read_only.
  - apply read_only_bind; [apply read_only_rule_step | exact IH].
Qed.

Lemma read_only_evaluate_rules (infer_string : bool)
    (user_name data_source : string) :
  read_only (evaluate_rules infer_string user_name data_source).
Proof.
  unfold evaluate_rules, fetch_user_pref_map, list_rules.
  apply read_only_bind.
  - auto with read_only.
  - intros prefs. apply read_only_bind; [auto with read_only|].
    intros rules. apply read_only_rules_loop.
Qed.

(** C9. [evaluate_rules] leaves the database as it found it, and a second
    call with the same user and data source, started in the state the
    first one left, ends with the same result. *)
Theorem evaluate_rules_idempotent (infer_string : bool)
    (user_name data_source : string) (s : Store) :
  (evaluate_rules infer_string user_name data_source s).2 = s ∧
  evaluate_rules infer_string user_name data_source
    (evaluate_rules infer_string user_name data_source s).2
  = evaluate_rules infer_string user_name data_source s.
Proof.
  pose proof (read_only_evaluate_rules infer_string user_name data_source s) as H.
  split; [exact H | now rewrite H].
Qed.

(** A change of the database between two calls does show: once
    [update_rule_meta] has switched [R1] off, the evaluation that raised
    returns an empty frame. *)
Lemma evaluate_rules_after_update (infer_string : bool) :
  let s := store_R1 [(10, 5)] [cond_eq] in
  let s' := (update_rule_meta 1 "R1" "Warning" false None s).2 in
  (evaluate_rules infer_string "alice" "Workday API" s).1
    = Raise (AttributeError "message") ∧
  (evaluate_rules infer_string "alice" "Workday API" s').1 = Ok [].
Proof. destruct infer_string; split; reflexivity. Qed.

(** C4, as the code has it.  [evaluate_rules] does not check its
    arguments: for every user and data source, the empty string included,
    it reads the preferences stored under these arguments and goes through
    the rules; when no rule of the frame fires, it returns an empty
    frame. *)
Theorem evaluate_rules_no_argument_check (infer_string : bool)
    (user_name data_source : string) (s : Store) :
  (∀ r, r ∈ read_frame infer_string (warningRule_select s) →
        rule_fires (dict_of_rows (userNodePreference_select s user_name data_source))
          data_source s r = false) →
  evaluate_rules infer_string user_name data_source s = (Ok [], s).
Proof.
  intros H. rewrite evaluate_rules_spec.
  destruct (existsb _ _) eqn:He; [|reflexivity].
  apply existsb_exists in He as (r & Hr & Hf).
  apply list_elem_of_In in Hr. rewrite (H r Hr) in Hf. discriminate.
Qed.

Lemma evaluate_rules_no_argument_check_witness :
  evaluate_rules true "" "" (store_R1 [] [cond_eq]) = (Ok [], store_R1 [] [cond_eq]).
Proof.
  refine (evaluate_rules_no_argument_check true "" "" (store_R1 [] [cond_eq]) _).
  intros r Hr. apply list_elem_of_In in Hr. destruct Hr as [<-|[]]. reflexivity.
Defined.

(** C4 as stated fails: called with an empty user and an empty data
    source, [evaluate_rules] goes through the rules and returns a frame
    (empty, as [R1] does not fire); it does not end with an error. *)
Lemma empty_arguments_evaluated :
  (evaluate_rules false "" "" (store_R1 [] [cond_eq])).1 = Ok [] ∧
  (evaluate_rules true "" "" (store_R1 [] [cond_eq])).1 = Ok [] ∧
  (¬ ∃ e, (evaluate_rules false "" "" (store_R1 [] [cond_eq])).1 = Raise e) ∧
  (¬ ∃ e, (evaluate_rules true "" "" (store_R1 [] [cond_eq])).1 = Raise e).
Proof.
  split; [reflexivity|]. split; [reflexivity|].
  split; intros [e He]; discriminate He.
Qed.

(** ** Rules that fire *)

Lemma vacuous_rule_fires (prefs : gmap Z Z) (ds : string) (s : Store)
    (r : RuleRow.t) :
  RuleRow.isActive r = true → other_source r ds = false →
  warningRuleCondition_select s (RuleRow.id r) = [] →
  rule_fires prefs ds s r = true.
Proof. intros Ha Hs Hc. unfold rule_fires. now rewrite Ha, Hs, Hc. Qed.

(** As soon as a rule fires, the evaluation ends with the exception of
    the missing attribute instead of a frame. *)
Lemma fired_rule_raises (infer_string : bool) (user_name data_source : string)
    (s : Store) (r : RuleRow.t) :
  r ∈ read_frame infer_string (warningRule_select s) →
  rule_fires (dict_of_rows (userNodePreference_select s user_name data_source))
    data_source s r = true →
  evaluate_rules infer_string user_name data_source s
  = (Raise (AttributeError "message"), s).
Proof.
  intros Hr Hf. rewrite evaluate_rules_spec.
  destruct (existsb _ _) eqn:He; [reflexivity|].
  rewrite <- not_true_iff_false in He. exfalso. apply He.
  apply existsb_exists. exists r. split; [now apply list_elem_of_In | exact Hf].
Qed.

(** C5 on the code.  The rule [R1], active, without a filter and without
    conditions, passes every test of the loop, and building its hit
    raises: [evaluate_rules] ends with [AttributeError] for [message]
    and returns no frame, with and without string inference (the only
    filter of the frame is missing, so it is [None] in both). *)
Theorem vacuous_rule_raises :
  RuleRow.isActive R1 = true ∧
  other_source R1 "Workday API" = false ∧
  conds_loop ∅ true [] = true ∧
  read_frame true (warningRule_select (store_R1 [] [])) = [R1] ∧
  evaluate_rules false "alice" "Workday API" (store_R1 [] [])
  = (Raise (AttributeError "message"), store_R1 [] []) ∧
  evaluate_rules true "alice" "Workday API" (store_R1 [] [])
  = (Raise (AttributeError "message"), store_R1 [] []).
Proof. repeat split. Qed.

(** ** The scenarios of the specification, run *)

(** Scenario A: nothing stored for node 10, [R1] does not fire. *)
Example scenario_A (infer_string : bool) :
  evaluate_rules infer_string "alice" "Workday API" (store_R1 [] [cond_eq])
  = (Ok [], store_R1 [] [cond_eq]).
Proof. destruct infer_string; reflexivity. Qed.

(** Scenario B: value 5 stored for node 10, [R1] fires and its hit cannot
    be built. *)
Example scenario_B (infer_string : bool) :
  evaluate_rules infer_string "alice" "Workday API" (store_R1 [(10, 5)] [cond_eq])
  = (Raise (AttributeError "message"), store_R1 [(10, 5)] [cond_eq]).
Proof. destruct infer_string; reflexivity. Qed.

(** Scenario C: both conditions of the rule match. *)
Example scenario_C :
  conds_loop (dict_of_rows [(10, 5); (20, 9)]) true [cond_eq; cond_neq] = true.
Proof. reflexivity. Qed.

(** Scenarios D and E: without [R1], the rules [R4] and [R3] are skipped
    and the frame is empty. *)
Example scenario_D_E (infer_string : bool) :
  evaluate_rules infer_string "alice" "Workday API" store_skipped
  = (Ok [], store_skipped).
Proof. destruct infer_string; reflexivity. Qed.

(** * Further properties of the page *)

(** ** The engine *)

(** X1. [evaluate_rules] never returns a frame with a row: it returns the
    empty frame exactly when no rule of the frame of [list_rules] fires,
    and as soon as one fires it ends with [AttributeError] for
    [message]. *)
Theorem evaluate_rules_outcome (infer_string : bool)
    (user_name data_source : string) (s : Store) :
  (∀ hits, (evaluate_rules infer_string user_name data_source s).1 = Ok hits →
     hits = [] ∧
     ∀ r, r ∈ read_frame infer_string (warningRule_select s) →
       rule_fires (dict_of_rows (userNodePreference_select s user_name data_source))
         data_source s r = false) ∧
  (∀ e, (evaluate_rules infer_string user_name data_source s).1 = Raise e →
     e = AttributeError "message" ∧
     ∃ r, r ∈ read_frame infer_string (warningRule_select s) ∧
       rule_fires (dict_of_rows (userNodePreference_select s user_name data_source))
         data_source s r = true).
Proof.
  rewrite evaluate_rules_spec.
  destruct (existsb _ _) eqn:He; simpl; split.
  - intros hits [=].
  - intros e [= <-]. split; [reflexivity|].
    apply existsb_exists in He as (r & Hr & Hf).
    exists r. split; [now apply list_elem_of_In | exact Hf].
  - intros hits [= <-]. split; [reflexivity|].
    intros r Hr. apply not_true_is_false. intros Hf.
    rewrite <- not_true_iff_false in He. apply He.
    apply existsb_exists. exists r. split; [now apply list_elem_of_In | exact Hf].
  - intros e [=].
Qed.

(** X2. The loop over the conditions, with its early exit, leaves [ok]
    true if and only if every condition of the rule matches. *)
Theorem rule_ok_iff_all_conditions (prefs : gmap Z Z) (conds : list CondRow.t) :
  conds_loop prefs true conds = true ↔
  ∀ c, c ∈ conds → cond_step prefs true c = true.
Proof. apply conds_loop_true. Qed.

(** X3. The order of the conditions of a rule does not change whether
    the rule passes. *)
Theorem conds_loop_order (prefs : gmap Z Z) (conds conds' : list CondRow.t) :
  conds ≡ₚ conds' →
  conds_loop prefs true conds = conds_loop prefs true conds'.
Proof.
  intros Hp.
  destruct (conds_loop prefs true conds') eqn:H'.
  - apply conds_loop_true. intros c Hc.
    apply (proj1 (conds_loop_true _ _) H'). now rewrite <- Hp.
  - apply not_true_is_false. intros H.
    rewrite <- not_true_iff_false in H'. apply H'.
    apply conds_loop_true. intros c Hc.
    apply (proj1 (conds_loop_true _ _) H). now rewrite Hp.
Qed.

Lemma conds_loop_order_witness :
  conds_loop {[10 := 5]} true [cond_eq; cond_neq]
  = conds_loop {[10 := 5]} true [cond_neq; cond_eq].
Proof.
  refine (conds_loop_order {[10 := 5]} [cond_eq; cond_neq] [cond_neq; cond_eq] _).
  apply Permutation_swap.
Defined.

(** X4. Only the selections for the nodes of its conditions count for a
    rule: two preference maps that agree on these nodes give the same
    result. *)
Theorem conds_loop_only_reads_nodes (prefs prefs' : gmap Z Z)
    (conds : list CondRow.t) :
  (∀ c, c ∈ conds →
        prefs !! CondRow.pillarNode_id c = prefs' !! CondRow.pillarNode_id c) →
  conds_loop prefs true conds = conds_loop prefs' true conds.
Proof.
  intros H. rewrite !conds_loop_forallb.
  induction conds as [|c conds IH]; simpl; [reflexivity|].
  rewrite IH by (intros c' Hc'; apply H; now right).
  f_equal. unfold cond_step. rewrite (H c) by now left. reflexivity.
Qed.

Lemma conds_loop_only_reads_nodes_witness :
  conds_loop {[10 := 5]} true [cond_eq]
  = conds_loop {[10 := 5; 20 := 9]} true [cond_eq].
Proof.
  refine (conds_loop_only_reads_nodes {[10 := 5]} {[10 := 5; 20 := 9]} [cond_eq] _).
  intros c Hc. apply list_elem_of_In in Hc. destruct Hc as [<-|[]]. reflexivity.
Defined.

(** X5. On the same node and the same recorded target, [!=] (or [<>]) is
    the negation of [=]. *)
Theorem neq_negates_eq (prefs : gmap Z Z) (c1 c2 : CondRow.t) (V : Z) :
  CondRow.operator c1 = "=" →
  CondRow.operator c2 = "!=" ∨ CondRow.operator c2 = "<>" →
  CondRow.pillarNode_id c1 = CondRow.pillarNode_id c2 →
  CondRow.pillarNodeValue_id c1 = Some V →
  CondRow.pillarNodeValue_id c2 = Some V →
  cond_step prefs true c2 = negb (cond_step prefs true c1).
Proof.
  intros H1 H2 Hn Ht1 Ht2.
  assert (Hup1 : upper (CondRow.operator c1) = "=") by (now rewrite H1).
  assert (Hup2 : upper (CondRow.operator c2) = "!=" ∨
                 upper (CondRow.operator c2) = "<>")
    by (destruct H2 as [-> | ->]; [left | right]; reflexivity).
  rewrite (cond_step_eq _ _ _ Hup1), (cond_step_neq _ _ _ Hup2).
  rewrite Hn, Ht1, Ht2. simpl.
  destruct (prefs !! CondRow.pillarNode_id c2); reflexivity.
Qed.

Lemma neq_negates_eq_witness :
  cond_step {[10 := 5]} true
    (CondRow.mk 9 1 10 "Source Format" "!=" (Some 5) (Some "Unstructured"))
  = negb (cond_step {[10 := 5]} true cond_eq).
Proof.
  refine (neq_negates_eq {[10 := 5]} cond_eq
            (CondRow.mk 9 1 10 "Source Format" "!=" (Some 5) (Some "Unstructured"))
            5 _ _ _ _ _); try reflexivity.
  left. reflexivity.
Defined.

(** X6. With one stored row per node, the map [fetch_user_pref_map]
    returns has a selection for a node exactly when a row is stored for
    it, and the selection is the value of that row; the database is left
    as it was. *)
Theorem fetch_user_pref_map_rows (user_name data_source : string) (s : Store) :
  NoDup (userNodePreference_select s user_name data_source).*1 →
  ∃ prefs, fetch_user_pref_map user_name data_source s = (Ok prefs, s) ∧
    (∀ n v, prefs !! n = Some v ↔
            (n, v) ∈ userNodePreference_select s user_name data_source) ∧
    (∀ n, prefs !! n = None ↔
          n ∉ (userNodePreference_select s user_name data_source).*1).
Proof.
  intros Hnd. eexists. split; [apply fetch_user_pref_map_spec|]. split.
  - intros n v. now apply dict_of_rows_Some.
  - intros n. apply dict_of_rows_None.
Qed.

Lemma fetch_user_pref_map_rows_witness :
  ∃ prefs, fetch_user_pref_map "alice" "Workday API" store_scenarios
           = (Ok prefs, store_scenarios) ∧
    (∀ n v, prefs !! n = Some v ↔ (n, v) ∈ [(10, 5)]) ∧
    (∀ n, prefs !! n = None ↔ n ∉ [(10, 5)].*1).
Proof.
  refine (fetch_user_pref_map_rows "alice" "Workday API" store_scenarios _).
  simpl. apply NoDup_singleton.
Defined.

(** ** Updating a rule *)

Lemma update_rule_meta_rows (rule_id : Z) (name severity : string)
    (is_active : bool) (ds_filter : option string) (s : Store) (r' : RuleRow.t) :
  r' ∈ warningRule_select (update_rule_meta rule_id name severity is_active ds_filter s).2 ↔
  ∃ r, r ∈ warningRule_select s ∧
    r' = (if bool_decide (RuleRow.id r = rule_id)
          then RuleRow.mk (RuleRow.id r) name severity is_active
                 (of_opt_str (or_None ds_filter)) (RuleRow.dateAdded r)
                 (RuleRow.conditions r)
          else r).
Proof.
  simpl. rewrite list_elem_of_In, in_map_iff.
  split; intros (r & H1 & H2); exists r.
  - split; [now apply list_elem_of_In | now symmetry].
  - split; [now symmetry | now apply list_elem_of_In].
Qed.

(** X7. Once [update_rule_meta] has stored a rule as not active, no row
    of that rule fires, whatever the preferences and the data source, in
    the answer of the database and in the frame built from it; the rows
    of the other rules are the ones there were, and the preferences and
    conditions are untouched. *)
Theorem update_rule_meta_switch_off (rule_id : Z) (name severity : string)
    (ds_filter : option string) (s : Store) :
  let s' := (update_rule_meta rule_id name severity false ds_filter s).2 in
  (∀ prefs ds r, r ∈ warningRule_select s' → RuleRow.id r = rule_id →
     rule_fires prefs ds s' r = false) ∧
  (∀ infer_string prefs ds r,
     r ∈ read_frame infer_string (warningRule_select s') →
     RuleRow.id r = rule_id → rule_fires prefs ds s' r = false) ∧
  (∀ r, RuleRow.id r ≠ rule_id →
     (r ∈ warningRule_select s' ↔ r ∈ warningRule_select s)) ∧
  userNodePreference_select s' = userNodePreference_select s ∧
  warningRuleCondition_select s' = warningRuleCondition_select s.
Proof.
  cbv zeta.
  assert (Hoff : ∀ r, r ∈ warningRule_select
                   (update_rule_meta rule_id name severity false ds_filter s).2 →
                 RuleRow.id r = rule_id → RuleRow.isActive r = false).
  { intros r' Hr' Hid.
    apply update_rule_meta_rows in Hr' as (r & Hr & ->).
    case_bool_decide as Hd; [reflexivity|].
    simpl in Hid. contradiction. }
  split; [|split; [|split; [|split; reflexivity]]].
  - intros prefs ds r Hr Hid. unfold rule_fires. now rewrite (Hoff r Hr Hid).
  - intros infer_string prefs ds r' Hr' Hid.
    apply read_frame_elem in Hr' as (r & Hr & Hi & Ha & _).
    unfold rule_fires. rewrite Ha, (Hoff r Hr); [reflexivity | congruence].
  - intros r' Hid. rewrite update_rule_meta_rows. split.
    + intros (r & Hr & ->). case_bool_decide as Hd; [|exact Hr].
      simpl in Hid. contradiction.
    + intros Hr. exists r'. split; [exact Hr|].
      now rewrite bool_decide_eq_false_2.
Qed.

(** X8. [update_rule_meta] for an identifier that no rule has changes
    nothing. *)
Theorem update_rule_meta_unknown_id (rule_id : Z) (name severity : string)
    (is_active : bool) (ds_filter : option string) (s : Store) :
  (∀ r, r ∈ warningRule_select s → RuleRow.id r ≠ rule_id) →
  update_rule_meta rule_id name severity is_active ds_filter s = (Ok tt, s).
Proof.
  intros H. unfold update_rule_meta, execute. f_equal.
  destruct s as [p rules c]. simpl in *. f_equal.
  induction rules as [|r rules IH]; simpl; [reflexivity|].
  rewrite bool_decide_eq_false_2 by (apply H; now left).
  f_equal. apply IH. intros r' Hr'. apply H. now right.
Qed.

Lemma update_rule_meta_unknown_id_witness :
  update_rule_meta 7 "R7" "Info" true None store_scenarios = (Ok tt, store_scenarios).
Proof.
  refine (update_rule_meta_unknown_id 7 "R7" "Info" true None store_scenarios _).
  intros r Hr. apply list_elem_of_In in Hr.
  destruct Hr as [<-|[<-|[<-|[]]]]; discriminate.
Defined.

(** X9. [update_rule_meta] stores an empty or missing filter as NULL,
    never as an empty text.  In the frame of [list_rules] the rule then
    has the filter [None] and passes the test on the data source for
    every data source, unless the frame has a string column (string
    inference, and another rule with a text as its filter): there the
    filter is [NaN] and the rule is skipped for every data source. *)
Theorem update_rule_meta_blank_filter (rule_id : Z) (name severity : string)
    (is_active : bool) (ds_filter : option string) (s : Store) :
  ds_filter = None ∨ ds_filter = Some "" →
  let s' := (update_rule_meta rule_id name severity is_active ds_filter s).2 in
  (∀ r, r ∈ warningRule_select s' → RuleRow.id r = rule_id →
     RuleRow.dataSourceFilter r = PNone) ∧
  (∀ infer_string r, r ∈ read_frame infer_string (warningRule_select s') →
     RuleRow.id r = rule_id →
     string_column infer_string
       (RuleRow.dataSourceFilter <$> warningRule_select s') = false →
     RuleRow.dataSourceFilter r = PNone ∧ ∀ ds, other_source r ds = false) ∧
  (∀ infer_string r, r ∈ read_frame infer_string (warningRule_select s') →
     RuleRow.id r = rule_id →
     string_column infer_string
       (RuleRow.dataSourceFilter <$> warningRule_select s') = true →
     RuleRow.dataSourceFilter r = PNaN ∧ ∀ ds, other_source r ds = true).
Proof.
  intros Hf. cbv zeta.
  assert (Hnull : ∀ r, r ∈ warningRule_select
                    (update_rule_meta rule_id name severity is_active ds_filter s).2 →
                  RuleRow.id r = rule_id → RuleRow.dataSourceFilter r = PNone).
  { intros r' Hr' Hid.
    apply update_rule_meta_rows in Hr' as (r & Hr & ->).
    case_bool_decide as Hd; [|contradiction].
    destruct Hf as [-> | ->]; reflexivity. }
  split; [exact Hnull|]. split.
  - intros infer_string r' Hr' Hid Hc.
    rewrite (read_frame_plain _ _ Hc) in Hr'.
    pose proof (Hnull r' Hr' Hid) as Hn.
    split; [exact Hn|]. intros ds. apply other_source_blank. now left.
  - intros infer_string r' Hr' Hid Hc.
    apply read_frame_elem in Hr' as (r & Hr & Hi & _ & H).
    assert (Hn : RuleRow.dataSourceFilter r = PNone)
      by (apply (Hnull r Hr); congruence).
    destruct H as [[H _]|[(_ & Hm & _)|(_ & _ & Hnan)]].
    + congruence.
    + rewrite Hn in Hm. discriminate.
    + split; [exact Hnan|]. intros ds. now apply other_source_nan.
Qed.

(** [R1] of the one-rule database, saved with an empty filter: the row
    the database then answers with has no filter. *)
Lemma update_rule_meta_blank_filter_witness :
  R1 ∈ warningRule_select
         (update_rule_meta 1 "R1" "Warning" true (Some "") (store_R1 [] [])).2 ∧
  RuleRow.dataSourceFilter R1 = PNone.
Proof.
  assert (H : R1 ∈ warningRule_select
                (update_rule_meta 1 "R1" "Warning" true (Some "") (store_R1 [] [])).2)
    by (simpl; apply list_elem_of_In; left; reflexivity).
  split; [exact H|].
  refine (proj1 (update_rule_meta_blank_filter 1 "R1" "Warning" true (Some "")
                   (store_R1 [] []) _) R1 H _).
  - right. reflexivity.
  - reflexivity.
Defined.

(** ** Stripping white space *)

Lemma lstrip_all_space (s : string) : all_space s = true → lstrip s = "".
Proof.
  induction s as [|a s IH]; simpl; [reflexivity|].
  intros [Ha Hs]%andb_true_iff. rewrite Ha. now apply IH.
Qed.

Lemma all_space_lstrip (s : string) : all_space (lstrip s) = true → all_space s = true.
Proof.
  induction s as [|a s IH]; simpl; [reflexivity|].
  destruct (is_space a) eqn:Ha; simpl; [exact IH|].
  now rewrite Ha.
Qed.

Lemma rstrip_empty (s : string) : rstrip s = "" → all_space s = true.
Proof.
  induction s as [|a s IH]; simpl; [reflexivity|].
  destruct (rstrip s) as [|b r]; [|discriminate].
  destruct (is_space a); [intros _; now rewrite IH | discriminate].
Qed.

Lemma strip_empty (s : string) : strip s = "" ↔ all_space s = true.
Proof.
  unfold strip. split.
  - intros H. now apply all_space_lstrip, rstrip_empty.
  - intros H. now rewrite lstrip_all_space.
Qed.

Lemma rstrip_idemp (s : string) : rstrip (rstrip s) = rstrip s.
Proof.
  induction s as [|a s IH]; simpl; [reflexivity|].
  destruct (rstrip s) as [|b r] eqn:Hr.
  - destruct (is_space a) eqn:Ha; simpl; [reflexivity | now rewrite Ha].
  - change (rstrip (String a (String b r))) with
      (match rstrip (String b r) with
       | "" => if is_space a then "" else String a ""
       | r' => String a r'
       end).
    now rewrite IH.
Qed.

Lemma lstrip_head (s : string) :
  lstrip s = "" ∨ ∃ a r, lstrip s = String a r ∧ is_space a = false.
Proof.
  induction s as [|a s IH]; simpl; [now left|].
  destruct (is_space a) eqn:Ha; [exact IH|].
  right. now exists a, s.
Qed.

Lemma lstrip_rstrip_lstrip (s : string) :
  lstrip (rstrip (lstrip s)) = rstrip (lstrip s).
Proof.
  destruct (lstrip_head s) as [-> | (a & r & -> & Ha)]; [reflexivity|].
  simpl. destruct (rstrip r); simpl; rewrite ?Ha; simpl; rewrite ?Ha; reflexivity.
Qed.

Lemma strip_idemp (s : string) : strip (strip s) = strip s.
Proof. unfold strip. now rewrite lstrip_rstrip_lstrip, rstrip_idemp. Qed.

(** ** The preview of the sidebar *)

Lemma run_preview_spec (infer_string : bool) (prev_user prev_source : string)
    (s : Store) :
  run_preview infer_string prev_user prev_source s =
  (if all_space prev_source then Ok (st_warning "Enter a Data Source name to preview.")
   else if existsb (rule_fires (dict_of_rows
                      (userNodePreference_select s (strip prev_user) (strip prev_source)))
                      (strip prev_source) s)
             (read_frame infer_string (warningRule_select s))
        then Raise (AttributeError "message")
        else Ok (st_success "No rules triggered."), s).
Proof.
  unfold run_preview. destruct (all_space prev_source) eqn:Hb.
  - rewrite bool_decide_eq_true_2 by now apply strip_empty. reflexivity.
  - rewrite bool_decide_eq_false_2
      by (rewrite strip_empty, Hb; discriminate).
    unfold mbind, DB_bind. rewrite evaluate_rules_spec.
    destruct (existsb _ _); reflexivity.
Qed.

(** X10. With a data source that is empty or white space only, the
    preview shows its warning and does not evaluate: nothing is read, and
    no exception comes up even when a rule would fire. *)
Theorem run_preview_blank_source (infer_string : bool)
    (prev_user prev_source : string) (s : Store) :
  all_space prev_source = true →
  run_preview infer_string prev_user prev_source s
  = (Ok (st_warning "Enter a Data Source name to preview."), s).
Proof. intros H. now rewrite run_preview_spec, H. Qed.

Lemma run_preview_blank_source_witness :
  run_preview true "alice" "  " (store_R1 [] [])
  = (Ok (st_warning "Enter a Data Source name to preview."), store_R1 [] []).
Proof.
  refine (run_preview_blank_source true "alice" "  " (store_R1 [] []) _). reflexivity.
Defined.

(** X11. The preview never shows a frame of hits and never changes the
    database: it shows the warning, or [No rules triggered.], or ends
    with [AttributeError] for [message]. *)
Theorem run_preview_never_shows_hits (infer_string : bool)
    (prev_user prev_source : string) (s : Store) :
  (run_preview infer_string prev_user prev_source s).2 = s ∧
  ((run_preview infer_string prev_user prev_source s).1
     = Ok (st_warning "Enter a Data Source name to preview.") ∨
   (run_preview infer_string prev_user prev_source s).1
     = Ok (st_success "No rules triggered.") ∨
   (run_preview infer_string prev_user prev_source s).1
     = Raise (AttributeError "message")).
Proof.
  rewrite run_preview_spec. split; [reflexivity|]. simpl.
  destruct (all_space prev_source); [now left|].
  destruct (existsb _ _); [right; now right | right; now left].
Qed.

(** X12. White space around the user and the data source typed into the
    preview makes no difference. *)
Theorem run_preview_strips (infer_string : bool)
    (prev_user prev_source : string) (s : Store) :
  run_preview infer_string prev_user prev_source s
  = run_preview infer_string (strip prev_user) (strip prev_source) s.
Proof.
  rewrite !run_preview_spec, !strip_idemp.
  replace (all_space (strip prev_source)) with (all_space prev_source); [reflexivity|].
  destruct (all_space prev_source) eqn:Hb.
  - symmetry. apply strip_empty. rewrite strip_idemp. now apply strip_empty.
  - symmetry. apply not_true_is_false. intros H.
    apply strip_empty in H. rewrite strip_idemp in H.
    apply strip_empty in H. congruence.
Qed.

(** ** The draft of a new rule *)


(** ** The condition builder *)

(** X14. Whatever is chosen in the builder, [Add condition] keeps the
    draft conditions well formed: a condition it adds has a value exactly
    when its operator is [=] or [!=]. *)
Theorem add_condition_click_well_formed (node_choice : option (Z * string))
    (op_choice : string) (vals_df : list (Z * string)) (picked : Z * string)
    (conds : list DraftCond) :
  Forall well_formed conds →
  Forall well_formed
    (add_condition_click node_choice op_choice
       (val_choice node_choice op_choice vals_df picked) conds).1.
Proof.
  intros Hwf. unfold add_condition_click, val_choice.
  destruct node_choice as [node|]; [|exact Hwf].
  destruct (needs_value op_choice) eqn:Hop; simpl.
  - destruct vals_df as [|v vals]; simpl; [exact Hwf|].
    apply Forall_app. split; [exact Hwf|].
    apply Forall_singleton. unfold well_formed.
    cbn [draft_operator value_id]. rewrite Hop.
    split; [reflexivity | intros _; eexists; reflexivity].
  - apply Forall_app. split; [exact Hwf|].
    apply Forall_singleton. unfold well_formed.
    cbn [draft_operator value_id]. rewrite Hop.
    split; [intros [? H]; discriminate H | discriminate].
Qed.

Lemma add_condition_click_well_formed_witness :
  Forall well_formed
    (add_condition_click (Some (10, "Source Format")) "="
       (val_choice (Some (10, "Source Format")) "=" [(5, "Unstructured")]
          (5, "Unstructured")) []).1.
Proof.
  refine (add_condition_click_well_formed (Some (10, "Source Format")) "="
            [(5, "Unstructured")] (5, "Unstructured") [] _).
  apply Forall_nil_2.
Defined.

(** X15. [Add condition] succeeds exactly when a node is chosen and, for
    [=] and [!=], the node has mapped values.  When it fails the list is
    unchanged; when it succeeds one condition is added at the end, with
    the chosen node and operator, and with the picked value for [=] and
    [!=] and no value otherwise. *)
Theorem add_condition_click_outcome (node_choice : option (Z * string))
    (op_choice : string) (vals_df : list (Z * string)) (picked : Z * string)
    (conds : list DraftCond) :
  (((add_condition_click node_choice op_choice
       (val_choice node_choice op_choice vals_df picked) conds).2 = None) ↔
   (is_Some node_choice ∧ (needs_value op_choice = true → vals_df ≠ []))) ∧
  ((add_condition_click node_choice op_choice
      (val_choice node_choice op_choice vals_df picked) conds).2 ≠ None →
   (add_condition_click node_choice op_choice
      (val_choice node_choice op_choice vals_df picked) conds).1 = conds) ∧
  ((add_condition_click node_choice op_choice
      (val_choice node_choice op_choice vals_df picked) conds).2 = None →
   ∃ d, (add_condition_click node_choice op_choice
           (val_choice node_choice op_choice vals_df picked) conds).1
        = (conds ++ [d])%list ∧
     node_choice = Some (node_id d, node_label d) ∧
     draft_operator d = op_choice ∧
     value_id d = (if needs_value op_choice then Some picked.1 else None) ∧
     value_label d = (if needs_value op_choice then picked.2 else "NULL")).
Proof.
  unfold add_condition_click, val_choice.
  destruct node_choice as [[nid nlabel]|]; simpl.
  2: { split; [|split]; [|reflexivity|discriminate].
       split; [discriminate | intros [[? [=]] _]]. }
  destruct (needs_value op_choice) eqn:Hop; simpl.
  - destruct vals_df as [|v vals]; simpl.
    + split; [|split]; [|reflexivity|discriminate].
      split; [discriminate | intros [_ H]; now destruct (H eq_refl)].
    + split; [|split].
      * split; [intros _; split; [eexists; reflexivity | discriminate] | reflexivity].
      * intros H. now destruct H.
      * intros _. eexists. split; [reflexivity|]. repeat split.
  - split; [|split].
    + split; [intros _; split; [eexists; reflexivity | discriminate] | reflexivity].
    + intros H. now destruct H.
    + intros _. eexists. split; [reflexivity|]. repeat split.
Qed.

(** X16. The two forms that add a condition decide alike: for the same
    choices, [Add condition to rule] calls [add_condition] exactly when
    [Add condition] extends the draft, with the node, operator and value
    of the draft condition, and shows an error exactly when the draft is
    left unchanged. *)
Theorem add_condition_forms_agree (rid : Z) (node_choice : option (Z * string))
    (op_choice : string) (vc : option (Z * string)) (conds : list DraftCond) :
  match add_condition_to_rule_click rid node_choice op_choice vc with
  | inl (rid', nid, op, vid) =>
      rid' = rid ∧
      ∃ d, add_condition_click node_choice op_choice vc conds
           = ((conds ++ [d])%list, None) ∧
        node_id d = nid ∧ draft_operator d = op ∧ value_id d = vid
  | inr _ =>
      (add_condition_click node_choice op_choice vc conds).1 = conds ∧
      is_Some (add_condition_click node_choice op_choice vc conds).2
  end.
Proof.
  unfold add_condition_to_rule_click, add_condition_click.
  destruct node_choice as [node|]; [|split; [reflexivity | eexists; reflexivity]].
  destruct (needs_value op_choice && negb (bool_decide (is_Some vc))).
  - split; [reflexivity | eexists; reflexivity].
  - split; [reflexivity|]. eexists. split; [reflexivity|]. now simpl.
Qed.

(** ** First day of an earlier month *)

Local Open Scope Z_scope.

(** The loop keeps the count of months [12 * year + month], ends with a
    month of at least 1, does not pass 12 when it started at most there,
    and does nothing for a month of at least 1. *)
Lemma month_loop_spec (year month : Z) :
  12 * (month_loop year month).1 + (month_loop year month).2 = 12 * year + month ∧
  1 ≤ (month_loop year month).2 ∧
  (month ≤ 12 → (month_loop year month).2 ≤ 12) ∧
  (1 ≤ month → month_loop year month = (year, month)).
Proof.
  funelim (month_loop year month).
  - destruct H as (H1 & H2 & H3 & H4).
    rewrite Heqcall in *. repeat split; try lia.
  - simpl. repeat split; lia.
Qed.

Lemma date_first (year month : Z) :
  1 ≤ year ≤ 9999 → 1 ≤ month ≤ 12 →
  date year month 1 = Some (Date.mk year month 1).
Proof.
  intros Hy Hm. unfold date.
  assert (Hd : 1 ≤ days_in_month year month)
    by (unfold days_in_month; repeat case_match; lia).
  rewrite !andb_true_intro; [reflexivity|..]; repeat split;
    try apply Z.leb_le; try lia.
Qed.

Lemma date_out_of_range (year month day : Z) :
  year < 1 ∨ 12 < month → date year month day = None.
Proof.
  intros H. unfold date.
  destruct (1 <=? year)%Z eqn:H1; [|reflexivity].
  destruct (year <=? 9999)%Z; [|reflexivity].
  destruct (1 <=? month)%Z; [|reflexivity].
  destruct (month <=? 12)%Z eqn:H4; [|reflexivity].
  apply Z.leb_le in H1, H4. lia.
Qed.

(** X17. For a date and a number of months that is not negative,
    [get_first_day_of_last_month] counts the months back across the years:
    it returns the first day of the month that lies that number of months
    before the month of the date, as long as that month is in year 1 or
    later; before year 1 the date cannot be built ([ValueError]). *)
Theorem get_first_day_of_last_month_back (reference_date : Date.t)
    (months_ago : Z) :
  1 ≤ Date.year reference_date ≤ 9999 →
  1 ≤ Date.month reference_date ≤ 12 →
  0 ≤ months_ago →
  (13 ≤ 12 * Date.year reference_date + Date.month reference_date - months_ago →
   ∃ d, get_first_day_of_last_month reference_date months_ago = Some d ∧
     Date.day d = 1 ∧ 1 ≤ Date.month d ≤ 12 ∧
     12 * Date.year d + Date.month d
     = 12 * Date.year reference_date + Date.month reference_date - months_ago) ∧
  (12 * Date.year reference_date + Date.month reference_date - months_ago < 13 →
   get_first_day_of_last_month reference_date months_ago = None).
Proof.
  intros Hy Hm Ha. unfold get_first_day_of_last_month. cbv zeta.
  pose proof (month_loop_spec (Date.year reference_date)
                (Date.month reference_date - months_ago)) as (H1 & H2 & H3 & _).
  specialize (H3 ltac:(lia)).
  destruct (month_loop _ _) as [y m]. simpl in *. split.
  - intros Ht. exists (Date.mk y m 1).
    rewrite date_first by lia. simpl. repeat split; lia.
  - intros Ht. apply date_out_of_range. left. lia.
Qed.

(** Two months before January 2024 is November 2023. *)
Lemma get_first_day_of_last_month_back_witness :
  ∃ d, get_first_day_of_last_month (Date.mk 2024 1 15) 2 = Some d ∧
    Date.day d = 1 ∧ 1 ≤ Date.month d ≤ 12 ∧
    12 * Date.year d + Date.month d = 12 * 2024 + 1 - 2.
Proof.
  refine (proj1 (get_first_day_of_last_month_back (Date.mk 2024 1 15) 2 _ _ _) _);
    simpl; lia.
Defined.

(** X18. The loop only goes back: with a negative number of months that
    leads past December, [get_first_day_of_last_month] does not move into
    the next year, the date cannot be built ([ValueError]); up to
    December it returns the first day of the later month of the same
    year. *)
Theorem get_first_day_of_last_month_forward (reference_date : Date.t)
    (months_ago : Z) :
  1 ≤ Date.year reference_date ≤ 9999 →
  1 ≤ Date.month reference_date ≤ 12 →
  months_ago ≤ 0 →
  (Date.month reference_date - months_ago ≤ 12 →
   get_first_day_of_last_month reference_date months_ago
   = Some (Date.mk (Date.year reference_date)
             (Date.month reference_date - months_ago) 1)) ∧
  (12 < Date.month reference_date - months_ago →
   get_first_day_of_last_month reference_date months_ago = None).
Proof.
  intros Hy Hm Ha. unfold get_first_day_of_last_month. cbv zeta.
  pose proof (month_loop_spec (Date.year reference_date)
                (Date.month reference_date - months_ago)) as (_ & _ & _ & H4).
  rewrite H4 by lia. simpl. split.
  - intros H. apply date_first; lia.
  - intros H. apply date_out_of_range. now right.
Qed.

(** One month after December 2024 is asked for: no date. *)
Lemma get_first_day_of_last_month_forward_witness :
  get_first_day_of_last_month (Date.mk 2024 12 31) (-1) = None.
Proof.
  refine (proj2 (get_first_day_of_last_month_forward (Date.mk 2024 12 31) (-1) _ _ _) _);
    simpl; lia.
Defined.
